(** * The AutoKey configuration window (lib/autokey/qtui/configwindow.py)

    A shallow embedding of the logic of [ConfigWindow]: the enablement of the
    menu actions derived from the tree selection ([update_actions]), the
    recording toggle ([cancel_record]), the close protocol ([queryClose],
    [on_close], [on_quit]) and the worker thread that runs the selected
    script ([on_run_script], [_run_script]).

    Qt widgets, the central widget, the configuration manager and the script
    service are collaborators of the window: they are represented by the
    part of their state the window reads or writes, and the calls the window
    makes on them are recorded in a trace. *)

From Stdlib Require Import ZArith.
From stdpp Require Import base option list gmap strings.

Local Open Scope Z_scope.

(** ** autokey.model: the items of the tree *)

Module model.

(** The three item classes the window tests with [isinstance].  None of
    them derives from another. *)
Inductive ItemClass := Folder | Phrase | Script.

(** An item is an object of one of the classes; [item_id] stands for the
    identity of the Python object. *)
Record Item := { item_class : ItemClass; item_id : nat }.

#[global] Instance ItemClass_eq_dec : EqDecision ItemClass.
Proof. solve_decision. Defined.

#[global] Instance Item_eq_dec : EqDecision Item.
Proof. solve_decision. Defined.

Definition isinstance (item : Item) (cls : ItemClass) : bool :=
  bool_decide (item_class item = cls).

End model.

Import model.

(** ** Qt actions *)

(** The actions of the main window that the modelled methods touch. *)
Inductive Action :=
| action_new_top_folder | action_new_sub_folder | action_new_phrase
| action_new_script | action_save | action_close_window | action_quit
| action_undo | action_redo | action_cut_item | action_copy_item
| action_paste_item | action_clone_item | action_delete_item
| action_rename_item | action_record_script | action_run_script.

#[global] Instance Action_eq_dec : EqDecision Action.
Proof. solve_decision. Defined.

(** The two properties of a [QAction] the window reads and writes. *)
Record QAction := { isEnabled : bool; isChecked : bool }.

(** ** The central widget *)

(** The part of the central widget the window looks at: the dirty flag, the
    cut/copied items, the tree selection returned by [get_selected_item],
    the sizes of the panes of the splitter and the widths of the columns of
    the tree widget. *)
Record CentralWidget := {
  dirty : bool;
  cutCopiedItems : list Item;
  get_selected_item : list Item;
  splitter_sizes : list Z;
  column_widths : list Z
}.

(** [QTreeView.columnWidth]: the width of a column, 0 for a column that does
    not exist. *)
Definition columnWidth (cw : CentralWidget) (column_index : nat) : Z :=
  default 0 (column_widths cw !! column_index).

(** ** The window *)

Record ConfigWindow := {
  actions : Action -> QAction;
  central_widget : CentralWidget;
  isVisible : bool
}.

Definition with_action (a : Action) (f : QAction -> QAction)
    (self : ConfigWindow) : ConfigWindow :=
  {| actions := fun a' => if decide (a = a') then f (actions self a)
                          else actions self a';
     central_widget := central_widget self;
     isVisible := isVisible self |}.

(** [self.<action>.setEnabled(b)] *)
Definition setEnabled (a : Action) (b : bool) : ConfigWindow -> ConfigWindow :=
  with_action a (fun q => {| isEnabled := b; isChecked := isChecked q |}).

(** [self.<action>.setChecked(b)] *)
Definition setChecked (a : Action) (b : bool) : ConfigWindow -> ConfigWindow :=
  with_action a (fun q => {| isEnabled := isEnabled q; isChecked := b |}).

Definition enabled (self : ConfigWindow) (a : Action) : bool :=
  isEnabled (actions self a).

Definition checked (self : ConfigWindow) (a : Action) : bool :=
  isChecked (actions self a).

Definition with_central_widget (f : CentralWidget -> CentralWidget)
    (self : ConfigWindow) : ConfigWindow :=
  {| actions := actions self;
     central_widget := f (central_widget self);
     isVisible := isVisible self |}.

(** [self.hide()] *)
Definition hide (self : ConfigWindow) : ConfigWindow :=
  {| actions := actions self;
     central_widget := central_widget self;
     isVisible := false |}.

(** [central_widget.set_dirty(b)] *)
Definition CentralWidget_set_dirty (b : bool) (cw : CentralWidget) : CentralWidget :=
  {| dirty := b;
     cutCopiedItems := cutCopiedItems cw;
     get_selected_item := get_selected_item cw;
     splitter_sizes := splitter_sizes cw;
     column_widths := column_widths cw |}.

(** The tree widget changes the selection. *)
Definition CentralWidget_select (items : list Item) (cw : CentralWidget) : CentralWidget :=
  {| dirty := dirty cw;
     cutCopiedItems := cutCopiedItems cw;
     get_selected_item := items;
     splitter_sizes := splitter_sizes cw;
     column_widths := column_widths cw |}.

(** *** ConfigWindow.set_dirty *)
Definition set_dirty (self : ConfigWindow) : ConfigWindow :=
  setEnabled action_save true
    (with_central_widget (CentralWidget_set_dirty true) self).

(** *** ConfigWindow.is_dirty *)
Definition is_dirty (self : ConfigWindow) : bool :=
  dirty (central_widget self).

(** *** ConfigWindow.update_actions *)

(** The loop of lines 199-202: [can_copy] is cleared, and the loop left, at
    the first folder. *)
Fixpoint can_copy_loop (items : list Item) (can_copy : bool) : bool :=
  match items with
  | [] => can_copy
  | item :: rest =>
      if isinstance item Folder then false
      else can_copy_loop rest can_copy
  end.

(** [len(items) == 1] *)
Definition len_is_1 (items : list Item) : bool :=
  bool_decide (length items = 1%nat).

Definition update_actions (items : list Item) (changed : bool)
    (self : ConfigWindow) : ConfigWindow :=
  match items with
  | [] => self                                   (* len(items) > 0 fails *)
  | items_0 :: _ =>
      let can_create := isinstance items_0 Folder && len_is_1 items in
      let can_copy := can_copy_loop items true in
      let self := setEnabled action_new_top_folder true self in
      let self := setEnabled action_new_sub_folder can_create self in
      let self := setEnabled action_new_phrase can_create self in
      let self := setEnabled action_new_script can_create self in
      let self := setEnabled action_copy_item can_copy self in
      let self := setEnabled action_clone_item can_copy self in
      let self :=
        setEnabled action_paste_item
          (can_create
           && bool_decide (0 < length (cutCopiedItems (central_widget self)))%nat)
          self in
      let self :=
        setEnabled action_record_script
          (isinstance items_0 Script && len_is_1 items) self in
      let self :=
        setEnabled action_run_script
          (isinstance items_0 Script && len_is_1 items) self in
      if changed then
        let self := setEnabled action_save false self in
        let self := setEnabled action_undo false self in
        setEnabled action_redo false self
      else self
  end.

(** *** ConfigWindow.set_undo_available, set_redo_available *)
Definition set_undo_available (state : bool) : ConfigWindow -> ConfigWindow :=
  setEnabled action_undo state.

Definition set_redo_available (state : bool) : ConfigWindow -> ConfigWindow :=
  setEnabled action_redo state.

(** ** The process around the window *)

(** A value stored in [cm.ConfigManager.SETTINGS]. *)
Inductive SettingValue := VInt (z : Z) | VList (l : list Z).

Inductive Exception := IndexError.

(** The calls the window makes on its collaborators, in the order they are
    made. *)
Inductive Event :=
| EvSettingsSet (key : string) (v : SettingValue)
    (* cm.ConfigManager.SETTINGS[key] = v *)
| EvPromptToSave                    (* central_widget.promptToSave() *)
| EvRecorderStop                    (* central_widget.recorder.stop() *)
| EvConfigAltered (persist_global : bool)  (* app.config_altered(..) *)
| EvShutdown                        (* app.shutdown() *)
| EvExecute (script : Item).        (* app.service.scriptRunner.execute(..) *)

(** A thread started by [on_run_script], by the line of [_run_script] it has
    reached. *)
Inductive Thread :=
| Started                     (* line 289 not yet run *)
| Sleeping (script : Item)    (* in time.sleep(2) of line 290 *)
| Finished                    (* returned from line 291 *)
| Died (e : Exception).       (* an exception ended the thread *)

Record World := {
  window : ConfigWindow;
  SETTINGS : gmap string SettingValue;
  threads : list Thread;
  trace : list Event
}.

Definition with_window (f : ConfigWindow -> ConfigWindow) (w : World) : World :=
  {| window := f (window w); SETTINGS := SETTINGS w;
     threads := threads w; trace := trace w |}.

Definition with_threads (f : list Thread -> list Thread) (w : World) : World :=
  {| window := window w; SETTINGS := SETTINGS w;
     threads := f (threads w); trace := trace w |}.

Definition emit (e : Event) (w : World) : World :=
  {| window := window w; SETTINGS := SETTINGS w;
     threads := threads w; trace := trace w ++ [e] |}.

(** [cm.ConfigManager.SETTINGS[key] = v] *)
Definition SETTINGS_setitem (key : string) (v : SettingValue) (w : World) : World :=
  emit (EvSettingsSet key v)
    {| window := window w; SETTINGS := <[key := v]> (SETTINGS w);
       threads := threads w; trace := trace w |}.

(** *** ConfigWindow.save_completed *)
Definition save_completed (persist_global : bool) (w : World) : World :=
  emit (EvConfigAltered persist_global)
    (with_window (setEnabled action_save false) w).

(** *** ConfigWindow.cancel_record *)
Definition cancel_record (w : World) : World :=
  if checked (window w) action_record_script then
    emit EvRecorderStop
      (with_window (setChecked action_record_script false) w)
  else w.

(** The recording state the window keeps is the check mark of
    [action_record_script]. *)
Definition recording_active (w : World) : bool :=
  checked (window w) action_record_script.

(** *** ConfigWindow.on_run_script, ConfigWindow._run_script *)

(** [t = threading.Thread(target=self._run_script); t.start()] *)
Definition on_run_script (w : World) : World :=
  with_threads (fun ts => ts ++ [Started]) w.

(** One scheduling step of the thread [tid] through [_run_script]: from
    [Started] it reads the selection (line 289) and goes to sleep; from
    [Sleeping] the delay has elapsed and it runs the script (line 291). *)
Definition _run_script_step (tid : nat) (w : World) : World :=
  match threads w !! tid with
  | Some Started =>
      match get_selected_item (central_widget (window w)) !! 0%nat with
      | Some script => with_threads (fun ts => <[tid := Sleeping script]> ts) w
      | None => with_threads (fun ts => <[tid := Died IndexError]> ts) w
      end
  | Some (Sleeping script) =>
      emit (EvExecute script)
        (with_threads (fun ts => <[tid := Finished]> ts) w)
  | _ => w
  end.

(** A thread of [on_run_script] is running a script from its start until it
    finishes or dies. *)
Definition Thread_alive (t : Thread) : bool :=
  match t with
  | Started | Sleeping _ => true
  | Finished | Died _ => false
  end.

Definition script_running (w : World) : bool :=
  existsb Thread_alive (threads w).

(** The scripts handed to the script runner so far. *)
Definition executed (w : World) : list Item :=
  omap (fun e => match e with EvExecute s => Some s | _ => None end) (trace w).

(** Modelled from the spec: [on_selection_changed(items, changed)], the call
    by which the tree of the central widget (not part of this file) reports
    a new selection: the selection is stored and [update_actions] runs. *)
Definition on_selection_changed (items : list Item) (changed : bool)
    (w : World) : World :=
  with_window
    (fun self =>
       update_actions items changed
         (with_central_widget (CentralWidget_select items) self))
    w.

(** *** Interleavings of the GUI thread and the worker threads *)

Inductive Step :=
| DoSelectionChanged (items : list Item) (changed : bool)
| DoSetDirty
| DoSaveCompleted (persist_global : bool)
| DoCancelRecord
| DoRunScript                 (* action_run_script triggered *)
| DoWorker (tid : nat).       (* the thread [tid] is scheduled *)

Definition exec (w : World) (s : Step) : World :=
  match s with
  | DoSelectionChanged items changed => on_selection_changed items changed w
  | DoSetDirty => with_window set_dirty w
  | DoSaveCompleted persist_global => save_completed persist_global w
  | DoCancelRecord => cancel_record w
  | DoRunScript => on_run_script w
  | DoWorker tid => _run_script_step tid w
  end.

Definition run (steps : list Step) (w : World) : World :=
  fold_left exec steps w.

(** ** Methods that can raise: a state and exception monad *)

Inductive Outcome (A : Type) :=
| Returned (a : A)
| Raised (e : Exception).

Arguments Returned {A} a.
Arguments Raised {A} e.

(** A method runs in a world and ends with a value or an exception; the
    effects made before an exception stay. *)
Definition M (A : Type) : Type := World -> Outcome A * World.

Definition ret {A} (a : A) : M A := fun w => (Returned a, w).

Definition raise {A} (e : Exception) : M A := fun w => (Raised e, w).

Definition bind {A B} (m : M A) (k : A -> M B) : M B :=
  fun w =>
    match m w with
    | (Returned a, w') => k a w'
    | (Raised e, w') => (Raised e, w')
    end.

Definition gets {A} (f : World -> A) : M A := fun w => (Returned (f w), w).

Definition modify (f : World -> World) : M unit := fun w => (Returned tt, f w).

Notation "'let*' x ':=' m 'in' k" := (bind m (fun x => k))
  (at level 10, x name, m at level 100, k at level 200, only parsing).

Notation "m ';;' k" := (bind m (fun _ => k))
  (at level 100, k at level 200, right associativity, only parsing).

(** [l[i]] on a Python list, for an index that is not negative. *)
Definition getitem {A} (l : list A) (i : nat) : M A :=
  match l !! i with
  | Some x => ret x
  | None => raise IndexError
  end.

Section Close.

(** The two keys of the layout preferences, [cm.HPANE_POSITION] and
    [cm.COLUMN_WIDTHS], are constants of the configuration manager. *)
Variables HPANE_POSITION COLUMN_WIDTHS : string.

(** [central_widget.promptToSave()] asks the user and may save: it answers
    whether the close is to be abandoned, and may change the window (the
    dirty flag, the enablement of the save action). *)
Variable promptToSave : ConfigWindow -> bool * ConfigWindow.

Definition call_promptToSave : M bool :=
  fun w =>
    let '(answer, self) := promptToSave (window w) in
    (Returned answer, emit EvPromptToSave (with_window (fun _ => self) w)).

(** *** ConfigWindow.queryClose *)
Definition queryClose : M bool :=
  let* sizes := gets (fun w => splitter_sizes (central_widget (window w))) in
  let* sizes_0 := getitem sizes 0 in
  modify (SETTINGS_setitem HPANE_POSITION (VInt (sizes_0 + 4))) ;;
  let* widths :=
    gets (fun w => map (columnWidth (central_widget (window w))) (seq 0 3)) in
  modify (SETTINGS_setitem COLUMN_WIDTHS (VList widths)) ;;
  let hide_and_return_True := (modify (with_window hide) ;; ret true) in
  let* is_dirty := gets (fun w => is_dirty (window w)) in
  if is_dirty then
    let* prompted := call_promptToSave in
    if prompted then ret false else hide_and_return_True
  else hide_and_return_True.

(** *** ConfigWindow.on_close *)
Definition on_close : M unit :=
  modify cancel_record ;;
  queryClose ;;
  ret tt.

(** *** ConfigWindow.on_quit *)
Definition on_quit : M unit :=
  let* closed := queryClose in
  if closed then modify (emit EvShutdown) else ret tt.

End Close.

(** ** A window to compute with *)

Definition example_central_widget : CentralWidget :=
  {| dirty := false; cutCopiedItems := []; get_selected_item := [];
     splitter_sizes := [250; 550]; column_widths := [150; 50; 100] |}.

(** Every action enabled and unchecked, nothing selected, nothing to save. *)
Definition example_window : ConfigWindow :=
  {| actions := fun _ => {| isEnabled := true; isChecked := false |};
     central_widget := example_central_widget;
     isVisible := true |}.

Definition example_world : World :=
  {| window := example_window; SETTINGS := ∅; threads := []; trace := [] |}.

Definition folder_1 : Item := {| item_class := Folder; item_id := 1 |}.
Definition phrase_2 : Item := {| item_class := Phrase; item_id := 2 |}.
Definition script_3 : Item := {| item_class := Script; item_id := 3 |}.
Definition script_4 : Item := {| item_class := Script; item_id := 4 |}.

(** A world in which a recording is active (the record action is checked)
    and the thread of an earlier run request is still in its delay. *)
Definition busy_world : World :=
  run [DoSelectionChanged [script_4] false; DoRunScript; DoWorker 0]
    (with_window (setChecked action_record_script true) example_world).

(** The thread [tid] is the one a step schedules. *)
Definition schedules (tid : nat) (s : Step) : bool :=
  match s with
  | DoWorker tid' => bool_decide (tid' = tid)
  | _ => false
  end.

(** A prompt whose answer abandons the close, and one whose answer lets it
    go on. *)
Definition prompt_handled (self : ConfigWindow) : bool * ConfigWindow :=
  (true, self).

Definition prompt_declined (self : ConfigWindow) : bool * ConfigWindow :=
  (false, self).

(** ** Counting threads and run requests *)

(** The number of threads of [on_run_script] that have not ended. *)
Definition alive_threads (w : World) : nat :=
  length (List.filter Thread_alive (threads w)).

Definition is_run_request (s : Step) : bool :=
  match s with
  | DoRunScript => true
  | _ => false
  end.

(** The number of times [action_run_script] is triggered in a run. *)
Definition run_requests (steps : list Step) : nat :=
  length (List.filter is_run_request steps).

(** A world whose splitter reports no pane. *)
Definition paneless_world : World :=
  with_window
    (with_central_widget
       (fun cw =>
          {| dirty := dirty cw;
             cutCopiedItems := cutCopiedItems cw;
             get_selected_item := get_selected_item cw;
             splitter_sizes := [];
             column_widths := column_widths cw |}))
    (with_window (setChecked action_record_script true) example_world).

(** * Properties *)

(** ** Reading an action after [setEnabled] and [setChecked] *)

Lemma enabled_setEnabled (a a' : Action) (b : bool) (self : ConfigWindow) :
  enabled (setEnabled a b self) a' = if decide (a = a') then b else enabled self a'.
Proof. unfold enabled, setEnabled, with_action; simpl. by case_decide. Qed.

Lemma checked_setEnabled (a a' : Action) (b : bool) (self : ConfigWindow) :
  checked (setEnabled a b self) a' = checked self a'.
Proof. unfold checked, setEnabled, with_action; simpl. by case_decide; subst. Qed.

Lemma checked_setChecked (a a' : Action) (b : bool) (self : ConfigWindow) :
  checked (setChecked a b self) a' = if decide (a = a') then b else checked self a'.
Proof. unfold checked, setChecked, with_action; simpl. by case_decide. Qed.

Lemma central_widget_setEnabled (a : Action) (b : bool) (self : ConfigWindow) :
  central_widget (setEnabled a b self) = central_widget self.
Proof. reflexivity. Qed.

(** ** The loop over the selection *)

Lemma can_copy_loop_forallb (items : list Item) :
  can_copy_loop items true
  = forallb (fun item => negb (isinstance item Folder)) items.
Proof.
  induction items as [|item rest IH]; simpl; [done|].
  destruct (isinstance item Folder); simpl; [done | exact IH].
Qed.

Lemma can_copy_loop_false (items : list Item) :
  can_copy_loop items true = false <->
  exists item, item ∈ items /\ item_class item = Folder.
Proof.
  induction items as [|item rest IH]; simpl.
  - split; [done | intros (i & Hi & _); by apply elem_of_nil in Hi].
  - unfold isinstance at 1. case_bool_decide as Hc.
    + split; [intros _; exists item; split; [left | done] | done].
    + rewrite IH. split.
      * intros (i & Hi & Hf). exists i. split; [by right | done].
      * intros (i & Hi & Hf). apply elem_of_cons in Hi as [-> | Hi]; [done|].
        by exists i.
Qed.

Lemma can_copy_loop_true (items : list Item) :
  can_copy_loop items true = true <->
  forall item, item ∈ items -> item_class item <> Folder.
Proof.
  split.
  - intros Ht i Hi Hf.
    assert (can_copy_loop items true = false) as Hfalse
      by (apply can_copy_loop_false; eauto).
    congruence.
  - intros Hall. destruct (can_copy_loop items true) eqn:E; [done|].
    apply can_copy_loop_false in E as (i & Hi & Hf). by destruct (Hall i Hi).
Qed.

Lemma len_is_1_cons (item : Item) (rest : list Item) :
  len_is_1 (item :: rest) = true <-> rest = [].
Proof.
  unfold len_is_1. rewrite bool_decide_eq_true. simpl.
  destruct rest; split; intros; try done; lia.
Qed.

Lemma isinstance_true (item : Item) (cls : ItemClass) :
  isinstance item cls = true <-> item_class item = cls.
Proof. unfold isinstance. apply bool_decide_eq_true. Qed.

(** The three values [update_actions] computes for a selection that is not
    empty, read back from the actions. *)
Lemma update_actions_enabled_create (item : Item) (rest : list Item)
    (changed : bool) (self : ConfigWindow) (a : Action) :
  a ∈ [action_new_sub_folder; action_new_phrase; action_new_script] ->
  enabled (update_actions (item :: rest) changed self) a
  = isinstance item Folder && len_is_1 (item :: rest).
Proof.
  intros Ha. unfold update_actions. destruct changed;
    rewrite !enabled_setEnabled;
    repeat (apply elem_of_cons in Ha as [-> | Ha]; [by simpl|]);
    by apply elem_of_nil in Ha.
Qed.

Lemma update_actions_enabled_copy (item : Item) (rest : list Item)
    (changed : bool) (self : ConfigWindow) (a : Action) :
  a ∈ [action_copy_item; action_clone_item] ->
  enabled (update_actions (item :: rest) changed self) a
  = can_copy_loop (item :: rest) true.
Proof.
  intros Ha. unfold update_actions. destruct changed;
    rewrite !enabled_setEnabled;
    repeat (apply elem_of_cons in Ha as [-> | Ha]; [by simpl|]);
    by apply elem_of_nil in Ha.
Qed.

Lemma update_actions_enabled_script (item : Item) (rest : list Item)
    (changed : bool) (self : ConfigWindow) (a : Action) :
  a ∈ [action_record_script; action_run_script] ->
  enabled (update_actions (item :: rest) changed self) a
  = isinstance item Script && len_is_1 (item :: rest).
Proof.
  intros Ha. unfold update_actions. destruct changed;
    rewrite !enabled_setEnabled;
    repeat (apply elem_of_cons in Ha as [-> | Ha]; [by simpl|]);
    by apply elem_of_nil in Ha.
Qed.

Lemma update_actions_enabled_paste (item : Item) (rest : list Item)
    (changed : bool) (self : ConfigWindow) :
  enabled (update_actions (item :: rest) changed self) action_paste_item
  = isinstance item Folder && len_is_1 (item :: rest)
    && bool_decide (0 < length (cutCopiedItems (central_widget self)))%nat.
Proof.
  unfold update_actions. destruct changed; rewrite !enabled_setEnabled; by simpl.
Qed.

Lemma update_actions_checked (items : list Item) (changed : bool)
    (self : ConfigWindow) (a : Action) :
  checked (update_actions items changed self) a = checked self a.
Proof.
  unfold update_actions. destruct items; [done|].
  destruct changed; by rewrite !checked_setEnabled.
Qed.

(** ** Enablement from the selection *)

(** C1, as stated, fails: with a recording active and a script running,
    selecting exactly one Script still enables both record and run. *)
Lemma update_actions_ignores_busy_state :
  recording_active busy_world = true /\
  script_running busy_world = true /\
  enabled (update_actions [script_3] false (window busy_world))
    action_record_script = true /\
  enabled (update_actions [script_3] false (window busy_world))
    action_run_script = true.
Proof. repeat split; reflexivity. Qed.

(** C1, amended: for every selection of exactly one Script item, whatever the
    recording and script-running state of the world, [update_actions]
    enables both record and run; it reads neither state and leaves the
    recording state as it was. *)
Theorem update_actions_one_script (w : World) (ident : nat) (changed : bool) :
  let script := {| item_class := Script; item_id := ident |} in
  let self := update_actions [script] changed (window w) in
  enabled self action_record_script = true /\
  enabled self action_run_script = true /\
  checked self action_record_script = recording_active w.
Proof.
  cbv zeta. rewrite !update_actions_enabled_script, update_actions_checked
    by (rewrite !elem_of_cons; auto).
  done.
Qed.

(** C3, as stated, fails on an empty selection: after an edit has enabled
    save, a selection-changed event with [changed] set and nothing selected
    leaves save, undo and redo enabled. *)
Lemma update_actions_changed_empty_selection :
  let self := update_actions [] true (set_dirty example_window) in
  enabled self action_save = true /\
  enabled self action_undo = true /\
  enabled self action_redo = true.
Proof. repeat split; reflexivity. Qed.

(** C3, amended: for every selection-changed event with [changed] set and a
    selection that is not empty, save, undo and redo are disabled afterwards,
    whatever their state before; on an empty selection the window is left as
    it was. *)
Theorem update_actions_changed_disables_save_undo_redo
    (self : ConfigWindow) (item : Item) (rest : list Item) :
  let self' := update_actions (item :: rest) true self in
  (enabled self' action_save = false /\
   enabled self' action_undo = false /\
   enabled self' action_redo = false) /\
  update_actions [] true self = self.
Proof.
  cbv zeta. unfold update_actions. rewrite !enabled_setEnabled. by simpl.
Qed.

(** C4, as stated, fails: the actions a folder, or a script, selection has
    enabled stay enabled when the selection becomes empty. *)
Lemma update_actions_empty_selection_keeps_enabled :
  let after_folder := update_actions [folder_1] false example_window in
  let after_script := update_actions [script_3] false example_window in
  enabled (update_actions [] false after_folder) action_new_sub_folder = true /\
  enabled (update_actions [] false after_folder) action_new_phrase = true /\
  enabled (update_actions [] false after_folder) action_new_script = true /\
  enabled (update_actions [] false after_script) action_copy_item = true /\
  enabled (update_actions [] false after_script) action_clone_item = true /\
  enabled (update_actions [] false after_script) action_record_script = true /\
  enabled (update_actions [] false after_script) action_run_script = true.
Proof. repeat split; reflexivity. Qed.

(** C4, amended: for every selection-changed event carrying an empty
    selection, the recomputation changes nothing: the sub-item creation
    actions, copy, clone, paste, record and run keep the state they had, and
    so does the top-level new folder action, which stays enabled if it
    was. *)
Theorem update_actions_empty_selection (self : ConfigWindow) (changed : bool) :
  let self' := update_actions [] changed self in
  self' = self /\
  Forall (fun a => enabled self' a = enabled self a)
    [action_new_top_folder; action_new_sub_folder; action_new_phrase;
     action_new_script; action_copy_item; action_clone_item;
     action_paste_item; action_record_script; action_run_script].
Proof. simpl. split; [done|]. by repeat constructor. Qed.

(** C6: for every selection that is not empty, copy and clone are disabled
    if some selected item is a Folder, and enabled if none is, whatever the
    mix of Phrase and Script items. *)
Theorem update_actions_can_copy (self : ConfigWindow) (item : Item)
    (rest : list Item) (changed : bool) :
  let items := item :: rest in
  let self' := update_actions items changed self in
  ((exists i, i ∈ items /\ item_class i = Folder) <->
     enabled self' action_copy_item = false /\
     enabled self' action_clone_item = false) /\
  ((forall i, i ∈ items -> item_class i <> Folder) <->
     enabled self' action_copy_item = true /\
     enabled self' action_clone_item = true).
Proof.
  cbv zeta. rewrite !update_actions_enabled_copy by (rewrite !elem_of_cons; auto).
  rewrite <- can_copy_loop_false, <- can_copy_loop_true. tauto.
Qed.

(** C7, as stated, fails at size 0: no value is computed for an empty
    selection, and the three actions a single Folder has enabled stay
    enabled. *)
Lemma can_create_not_recomputed_on_empty_selection :
  let self := update_actions [folder_1] false example_window in
  let self' := update_actions [] false self in
  length ([] : list Item) = 0%nat /\
  enabled self' action_new_sub_folder = true /\
  enabled self' action_new_phrase = true /\
  enabled self' action_new_script = true.
Proof. repeat split; reflexivity. Qed.

(** C7, amended: for every selection that is not empty, [can_create], which
    drives the new sub-folder, new phrase and new script actions, is true
    if and only if the selection has exactly one item and that item is a
    Folder (so it is false for two or more items and for a single item that
    is not a Folder); for an empty selection it is not computed and the
    three actions keep their state. *)
Theorem update_actions_can_create (self : ConfigWindow) (item : Item)
    (rest : list Item) (changed : bool) :
  let items := item :: rest in
  let self' := update_actions items changed self in
  Forall (fun a =>
            enabled self' a = true <->
            length items = 1%nat /\ item_class item = Folder)
    [action_new_sub_folder; action_new_phrase; action_new_script] /\
  Forall (fun a => enabled (update_actions [] changed self) a = enabled self a)
    [action_new_sub_folder; action_new_phrase; action_new_script].
Proof.
  cbv zeta. split; [|by repeat constructor].
  repeat (apply Forall_cons; split;
    [rewrite update_actions_enabled_create by (rewrite !elem_of_cons; auto);
     rewrite andb_true_iff, isinstance_true; unfold len_is_1;
     rewrite bool_decide_eq_true; simpl; tauto|]).
  by apply Forall_nil.
Qed.

(** C8: for every selection that is not empty, paste is enabled if and only
    if exactly one item is selected, it is a Folder, and the clipboard holds
    at least one item. *)
Theorem update_actions_can_paste (self : ConfigWindow) (item : Item)
    (rest : list Item) (changed : bool) :
  let items := item :: rest in
  let self' := update_actions items changed self in
  enabled self' action_paste_item = true <->
  (length items = 1%nat /\ item_class item = Folder) /\
  (0 < length (cutCopiedItems (central_widget self)))%nat.
Proof.
  cbv zeta. rewrite update_actions_enabled_paste.
  rewrite !andb_true_iff, isinstance_true. unfold len_is_1.
  rewrite !bool_decide_eq_true. simpl. tauto.
Qed.

(** ** The recording toggle *)

(** C9: [cancel_record] twice in a row from any world: the recording state
    is inactive after the first call and after the second, the second call
    changes nothing, and the recorder is stopped by the first call only when
    a recording was active. *)
Theorem cancel_record_idempotent (w : World) :
  let w1 := cancel_record w in
  let w2 := cancel_record w1 in
  recording_active w1 = false /\
  recording_active w2 = false /\
  w2 = w1 /\
  trace w1 = trace w ++ (if recording_active w then [EvRecorderStop] else []).
Proof.
  cbv zeta.
  assert (recording_active (cancel_record w) = false) as H1.
  { unfold cancel_record, recording_active.
    destruct (checked (window w) action_record_script) eqn:E; [|exact E].
    simpl. by rewrite checked_setChecked. }
  assert (cancel_record (cancel_record w) = cancel_record w) as H2.
  { unfold recording_active in H1. unfold cancel_record at 1. by rewrite H1. }
  rewrite H2. repeat split; try done.
  unfold cancel_record, recording_active.
  destruct (checked (window w) action_record_script); simpl; [done|].
  by rewrite app_nil_r.
Qed.

(** ** Closing the window *)

Lemma queryClose_unfold (HP CW : string)
    (prompt : ConfigWindow -> bool * ConfigWindow) (w : World)
    (sizes_0 : Z) (sizes_rest : list Z) :
  splitter_sizes (central_widget (window w)) = sizes_0 :: sizes_rest ->
  let cw := central_widget (window w) in
  let w' :=
    SETTINGS_setitem CW (VList [columnWidth cw 0; columnWidth cw 1; columnWidth cw 2])
      (SETTINGS_setitem HP (VInt (sizes_0 + 4)) w) in
  queryClose HP CW prompt w =
    if is_dirty (window w) then
      if (prompt (window w)).1
      then (Returned false,
            emit EvPromptToSave (with_window (fun _ => (prompt (window w)).2) w'))
      else (Returned true,
            with_window hide
              (emit EvPromptToSave
                 (with_window (fun _ => (prompt (window w)).2) w')))
    else (Returned true, with_window hide w').
Proof.
  intros Hsizes. cbv zeta.
  unfold queryClose, bind, gets, modify, getitem, ret, call_promptToSave.
  rewrite Hsizes. simpl.
  destruct (is_dirty (window w)); [|done].
  change (window (SETTINGS_setitem _ _ (SETTINGS_setitem _ _ w)))
    with (window w).
  destruct (prompt (window w)) as [[] self]; done.
Qed.

(** C5: on a dirty window whose save prompt is handled, [queryClose] returns
    False and the window is not hidden by it; on a clean window it returns
    True, hides the window, and makes exactly two writes to the settings:
    the pane position once and the three column widths once.  The splitter
    is taken to have a first pane, which [sizes()[0]] needs. *)
Theorem queryClose_dirty_handled_and_clean (HP CW : string)
    (prompt : ConfigWindow -> bool * ConfigWindow) (w : World)
    (sizes_0 : Z) (sizes_rest : list Z) :
  splitter_sizes (central_widget (window w)) = sizes_0 :: sizes_rest ->
  let cw := central_widget (window w) in
  let result := queryClose HP CW prompt w in
  (is_dirty (window w) = true /\ (prompt (window w)).1 = true ->
     result.1 = Returned false /\
     window result.2 = (prompt (window w)).2) /\
  (is_dirty (window w) = false ->
     result.1 = Returned true /\
     isVisible (window result.2) = false /\
     trace result.2 =
       trace w ++
       [EvSettingsSet HP (VInt (sizes_0 + 4));
        EvSettingsSet CW
          (VList [columnWidth cw 0; columnWidth cw 1; columnWidth cw 2])]).
Proof.
  intros Hsizes. cbv zeta. rewrite (queryClose_unfold _ _ _ _ _ _ Hsizes).
  split.
  - intros [-> ->]. done.
  - intros ->. simpl. by rewrite <- app_assoc.
Qed.

(** The theorem of C5 at a dirty window with a handled prompt and at a clean
    window. *)
Lemma queryClose_dirty_handled_and_clean_witness :
  (queryClose "hPanePosition" "columnWidths" prompt_handled
     (with_window set_dirty example_world)).1 = Returned false /\
  (queryClose "hPanePosition" "columnWidths" prompt_handled
     example_world).1 = Returned true.
Proof.
  split.
  - exact (proj1 (proj1
      (queryClose_dirty_handled_and_clean "hPanePosition" "columnWidths"
         prompt_handled (with_window set_dirty example_world) 250 [550]
         eq_refl) (conj eq_refl eq_refl))).
  - exact (proj1 (proj2
      (queryClose_dirty_handled_and_clean "hPanePosition" "columnWidths"
         prompt_handled example_world 250 [550] eq_refl) eq_refl)).
Defined.

(** C10: on every close request the pane position and the column widths are
    written to the settings first, before the dirty flag is looked at and
    before any prompt: the trace of the call starts with the two writes, and
    the settings hold both values however the call ends, also when a handled
    prompt makes it return False. *)
Theorem queryClose_writes_layout_first (HP CW : string)
    (prompt : ConfigWindow -> bool * ConfigWindow) (w : World)
    (sizes_0 : Z) (sizes_rest : list Z) :
  HP <> CW ->
  splitter_sizes (central_widget (window w)) = sizes_0 :: sizes_rest ->
  let cw := central_widget (window w) in
  let position := VInt (sizes_0 + 4) in
  let widths := VList [columnWidth cw 0; columnWidth cw 1; columnWidth cw 2] in
  let result := queryClose HP CW prompt w in
  SETTINGS result.2 !! HP = Some position /\
  SETTINGS result.2 !! CW = Some widths /\
  trace result.2 =
    trace w ++ [EvSettingsSet HP position; EvSettingsSet CW widths]
            ++ (if is_dirty (window w) then [EvPromptToSave] else []) /\
  (is_dirty (window w) = true /\ (prompt (window w)).1 = true ->
     result.1 = Returned false /\
     SETTINGS result.2 !! HP = Some position /\
     SETTINGS result.2 !! CW = Some widths).
Proof.
  intros Hkeys Hsizes. cbv zeta. rewrite (queryClose_unfold _ _ _ _ _ _ Hsizes).
  destruct (is_dirty (window w)); [destruct (prompt (window w)) as [[] self]|];
    simpl; rewrite ?lookup_insert_eq, ?(lookup_insert_ne _ CW HP) by done;
    rewrite ?lookup_insert_eq, <- ?app_assoc; simpl; repeat split; try done;
    match goal with H : _ /\ _ |- _ => by destruct H end.
Qed.

(** The theorem of C10 at a dirty window whose prompt is handled: the close
    is abandoned and the layout is in the settings. *)
Lemma queryClose_writes_layout_first_witness :
  let result :=
    queryClose "hPanePosition" "columnWidths" prompt_handled
      (with_window set_dirty example_world) in
  result.1 = Returned false /\
  SETTINGS result.2 !! "hPanePosition" = Some (VInt 254) /\
  SETTINGS result.2 !! "columnWidths" = Some (VList [150; 50; 100]).
Proof.
  exact (proj2 (proj2 (proj2
    (queryClose_writes_layout_first "hPanePosition" "columnWidths"
       prompt_handled (with_window set_dirty example_world) 250 [550]
       ltac:(discriminate) eq_refl))) (conj eq_refl eq_refl)).
Defined.

(** ** Running the selected script *)

(** Steps of the GUI thread and of other threads leave a sleeping thread
    asleep with the script it has read. *)
Lemma exec_keeps_sleeping (w : World) (s : Step) (tid : nat) (script : Item) :
  schedules tid s = false ->
  threads w !! tid = Some (Sleeping script) ->
  threads (exec w s) !! tid = Some (Sleeping script).
Proof.
  intros Hs Htid. destruct s as [items changed| |persist| | |tid']; simpl;
    try exact Htid.
  - unfold cancel_record. by destruct (checked _ _).
  - by apply lookup_app_l_Some.
  - simpl in Hs. apply bool_decide_eq_false in Hs.
    unfold _run_script_step.
    destruct (threads w !! tid') as [[]|] eqn:E; try exact Htid.
    + destruct (get_selected_item _ !! 0%nat); simpl;
        by rewrite list_lookup_insert_ne.
    + simpl. by rewrite list_lookup_insert_ne.
Qed.

Lemma run_keeps_sleeping (steps : list Step) (w : World) (tid : nat)
    (script : Item) :
  forallb (fun s => negb (schedules tid s)) steps = true ->
  threads w !! tid = Some (Sleeping script) ->
  threads (run steps w) !! tid = Some (Sleeping script).
Proof.
  revert w. induction steps as [|s steps IH]; intros w Hall Htid; [done|].
  simpl in Hall. apply andb_true_iff in Hall as [Hs Hall].
  apply negb_true_iff in Hs. simpl. apply IH; [done|].
  by apply exec_keeps_sleeping.
Qed.

(** C2, as stated, fails: the request only starts the thread, and the thread
    reads the selection when it first runs.  A change of selection between
    the two is the one the thread sees: the script run is the newly selected
    one. *)
Lemma run_script_reads_selection_in_thread :
  let requested :=
    run [DoSelectionChanged [script_3] false; DoRunScript] example_world in
  let reselected := run [DoSelectionChanged [script_4] false] requested in
  let finished := run [DoWorker 0; DoWorker 0] reselected in
  get_selected_item (central_widget (window requested)) = [script_3] /\
  threads requested = [Started] /\
  threads reselected = [Started] /\
  threads finished = [Finished] /\
  executed finished = [script_4].
Proof. repeat split; reflexivity. Qed.

(** C2, amended: the thread of a run request reads the selection as its
    first action, before the delay.  Once it has read the script at the head
    of the selection, whatever the GUI thread and the other threads do while
    it sleeps (changes of selection among them), it is still asleep with that
    script, and when the delay has elapsed it hands that script, and no
    other, to the script runner. *)
Theorem run_script_executes_script_read_before_delay
    (w : World) (script : Item) (others : list Item) (steps : list Step) :
  let tid := length (threads w) in
  let w1 := _run_script_step tid (on_run_script w) in
  let w2 := run steps w1 in
  let w3 := _run_script_step tid w2 in
  get_selected_item (central_widget (window w)) = script :: others ->
  forallb (fun s => negb (schedules tid s)) steps = true ->
  threads w1 !! tid = Some (Sleeping script) /\
  trace w1 = trace w /\
  threads w2 !! tid = Some (Sleeping script) /\
  threads w3 !! tid = Some Finished /\
  trace w3 = trace w2 ++ [EvExecute script].
Proof.
  cbv zeta. intros Hsel Hsteps.
  assert (threads (_run_script_step (length (threads w)) (on_run_script w))
            !! length (threads w) = Some (Sleeping script)
          /\ trace (_run_script_step (length (threads w)) (on_run_script w))
             = trace w) as [H1 Htr].
  { unfold _run_script_step, on_run_script. simpl.
    rewrite lookup_app_r, Nat.sub_diag by done. simpl.
    rewrite Hsel. simpl. split; [|done].
    apply list_lookup_insert_eq. rewrite length_app. simpl. lia. }
  pose proof (run_keeps_sleeping steps _ _ _ Hsteps H1) as H2.
  set (w2 := run steps _) in *. clearbody w2.
  repeat split; try done.
  - unfold _run_script_step. rewrite H2. simpl.
    apply list_lookup_insert_eq. by eapply lookup_lt_Some.
  - unfold _run_script_step. by rewrite H2.
Qed.

(** The theorem of C2 at a run of [script_3] during whose delay [script_4]
    is selected and a second run is requested. *)
Lemma run_script_executes_script_read_before_delay_witness :
  let w := run [DoSelectionChanged [script_3] false] example_world in
  let w1 := _run_script_step 0 (on_run_script w) in
  let w2 := run [DoSelectionChanged [script_4] true; DoRunScript] w1 in
  let w3 := _run_script_step 0 w2 in
  get_selected_item (central_widget (window w)) = [script_3] /\
  get_selected_item (central_widget (window w2)) = [script_4] /\
  trace w3 = trace w2 ++ [EvExecute script_3].
Proof.
  split; [reflexivity|]. split; [reflexivity|].
  exact (proj2 (proj2 (proj2 (proj2
    (run_script_executes_script_read_before_delay
       (run [DoSelectionChanged [script_3] false] example_world)
       script_3 [] [DoSelectionChanged [script_4] true; DoRunScript]
       eq_refl eq_refl))))).
Defined.

(** * Further properties of the window *)

(** ** Close, quit and the splitter *)

Lemma cancel_record_central_widget (w : World) :
  central_widget (window (cancel_record w)) = central_widget (window w).
Proof. unfold cancel_record. by destruct (checked _ _). Qed.

Lemma cancel_record_trace (w : World) :
  trace (cancel_record w)
  = trace w ++ (if recording_active w then [EvRecorderStop] else []).
Proof.
  unfold cancel_record, recording_active.
  destruct (checked _ _); simpl; [done | by rewrite app_nil_r].
Qed.

Lemma cancel_record_inactive (w : World) :
  recording_active (cancel_record w) = false.
Proof.
  unfold cancel_record, recording_active.
  destruct (checked (window w) action_record_script) eqn:E; [|exact E].
  simpl. by rewrite checked_setChecked.
Qed.

(** X1: when the splitter reports no pane, [sizes()[0]] raises IndexError
    before anything is written: [queryClose] and [on_quit] leave the world
    as it was (no setting written, no prompt, window not hidden, no
    shutdown), and [on_close] raises too, after it has cancelled the
    recording. *)
Theorem close_without_pane_raises (HP CW : string)
    (prompt : ConfigWindow -> bool * ConfigWindow) (w : World) :
  splitter_sizes (central_widget (window w)) = [] ->
  queryClose HP CW prompt w = (Raised IndexError, w) /\
  on_quit HP CW prompt w = (Raised IndexError, w) /\
  on_close HP CW prompt w = (Raised IndexError, cancel_record w).
Proof.
  intros Hsizes.
  assert (forall w0, splitter_sizes (central_widget (window w0)) = [] ->
            queryClose HP CW prompt w0 = (Raised IndexError, w0)) as Hq.
  { intros w0 H0. unfold queryClose, bind, gets, getitem, raise.
    by rewrite H0. }
  split; [by apply Hq|]. split.
  - unfold on_quit, bind. by rewrite Hq.
  - unfold on_close, bind, modify. rewrite Hq; [done|].
    by rewrite cancel_record_central_widget.
Qed.

(** The theorem of X1 at a window without pane on which a recording is
    active. *)
Lemma close_without_pane_raises_witness :
  on_close "hPanePosition" "columnWidths" prompt_handled paneless_world
  = (Raised IndexError, cancel_record paneless_world) /\
  recording_active paneless_world = true.
Proof.
  split; [|reflexivity].
  exact (proj2 (proj2
    (close_without_pane_raises "hPanePosition" "columnWidths"
       prompt_handled paneless_world eq_refl))).
Defined.

(** X2: with a pane in the splitter [queryClose] never raises, and it
    returns False exactly when the window is dirty and the prompt was
    handled.  In every other case, a dirty window whose prompt is declined
    included, it returns True and the window is the hidden one. *)
Theorem queryClose_returns_False_iff_prompt_handled (HP CW : string)
    (prompt : ConfigWindow -> bool * ConfigWindow) (w : World)
    (sizes_0 : Z) (sizes_rest : list Z) :
  splitter_sizes (central_widget (window w)) = sizes_0 :: sizes_rest ->
  let result := queryClose HP CW prompt w in
  let handled := is_dirty (window w) && (prompt (window w)).1 in
  result.1 = Returned (negb handled) /\
  (handled = false ->
     window result.2
     = hide (if is_dirty (window w) then (prompt (window w)).2 else window w)).
Proof.
  intros Hsizes. cbv zeta. rewrite (queryClose_unfold _ _ _ _ _ _ Hsizes).
  destruct (is_dirty (window w)); [|done].
  destruct (prompt (window w)) as [[] self]; done.
Qed.

(** The theorem of X2 at a dirty window whose prompt is declined. *)
Lemma queryClose_returns_False_iff_prompt_handled_witness :
  (queryClose "hPanePosition" "columnWidths" prompt_declined
     (with_window set_dirty example_world)).1 = Returned true.
Proof.
  exact (proj1
    (queryClose_returns_False_iff_prompt_handled "hPanePosition"
       "columnWidths" prompt_declined (with_window set_dirty example_world)
       250 [550] eq_refl)).
Defined.

(** X3: [on_quit] shuts the application down exactly when [queryClose]
    returned True: the calls it makes are the two settings writes, the
    prompt if the window is dirty, and [app.shutdown()] unless the prompt
    was handled.  It never stops the recorder, and on a clean window the
    recording state is as before. *)
Theorem on_quit_shuts_down_iff_closed (HP CW : string)
    (prompt : ConfigWindow -> bool * ConfigWindow) (w : World)
    (sizes_0 : Z) (sizes_rest : list Z) :
  splitter_sizes (central_widget (window w)) = sizes_0 :: sizes_rest ->
  let cw := central_widget (window w) in
  let result := on_quit HP CW prompt w in
  let handled := is_dirty (window w) && (prompt (window w)).1 in
  result.1 = Returned tt /\
  trace result.2 =
    trace w
    ++ [EvSettingsSet HP (VInt (sizes_0 + 4));
        EvSettingsSet CW
          (VList [columnWidth cw 0; columnWidth cw 1; columnWidth cw 2])]
    ++ (if is_dirty (window w) then [EvPromptToSave] else [])
    ++ (if handled then [] else [EvShutdown]) /\
  (is_dirty (window w) = false ->
     recording_active result.2 = recording_active w).
Proof.
  intros Hsizes. cbv zeta. unfold on_quit, bind.
  rewrite (queryClose_unfold _ _ _ _ _ _ Hsizes).
  destruct (is_dirty (window w)); [destruct (prompt (window w)) as [[] self]|];
    simpl; rewrite <- ?app_assoc; done.
Qed.

(** The theorem of X3 at a dirty window whose prompt is handled: no
    shutdown. *)
Lemma on_quit_shuts_down_iff_closed_witness :
  trace (on_quit "hPanePosition" "columnWidths" prompt_handled
           (with_window set_dirty example_world)).2
  = [EvSettingsSet "hPanePosition" (VInt 254);
     EvSettingsSet "columnWidths" (VList [150; 50; 100]);
     EvPromptToSave].
Proof.
  exact (proj1 (proj2
    (on_quit_shuts_down_iff_closed "hPanePosition" "columnWidths"
       prompt_handled (with_window set_dirty example_world) 250 [550]
       eq_refl))).
Defined.

(** X4: [on_close] cancels the recording before it does anything else and
    drops the answer of [queryClose]: it returns normally whether or not the
    window was closed, the recorder is stopped first if a recording was
    active, then come the two settings writes and the prompt of a dirty
    window.  On a clean window it ends hidden with no recording active. *)
Theorem on_close_cancels_recording_then_closes (HP CW : string)
    (prompt : ConfigWindow -> bool * ConfigWindow) (w : World)
    (sizes_0 : Z) (sizes_rest : list Z) :
  splitter_sizes (central_widget (window w)) = sizes_0 :: sizes_rest ->
  let cw := central_widget (window w) in
  let result := on_close HP CW prompt w in
  result.1 = Returned tt /\
  trace result.2 =
    trace w
    ++ (if recording_active w then [EvRecorderStop] else [])
    ++ [EvSettingsSet HP (VInt (sizes_0 + 4));
        EvSettingsSet CW
          (VList [columnWidth cw 0; columnWidth cw 1; columnWidth cw 2])]
    ++ (if is_dirty (window w) then [EvPromptToSave] else []) /\
  (is_dirty (window w) = false ->
     recording_active result.2 = false /\
     isVisible (window result.2) = false).
Proof.
  intros Hsizes. cbv zeta. unfold on_close, bind, modify, ret.
  assert (splitter_sizes (central_widget (window (cancel_record w)))
          = sizes_0 :: sizes_rest) as Hsizes'
    by by rewrite cancel_record_central_widget.
  rewrite (queryClose_unfold _ _ _ _ _ _ Hsizes').
  pose proof (cancel_record_trace w) as Htr.
  pose proof (cancel_record_inactive w) as Hrec.
  unfold is_dirty. rewrite !cancel_record_central_widget.
  destruct (dirty (central_widget (window w)));
    [destruct (prompt (window (cancel_record w))) as [[] self]|];
    simpl; rewrite Htr, <- ?app_assoc; simpl; repeat split; done.
Qed.

(** The theorem of X4 at a clean window on which a recording is active. *)
Lemma on_close_cancels_recording_then_closes_witness :
  let w := with_window (setChecked action_record_script true) example_world in
  trace (on_close "hPanePosition" "columnWidths" prompt_handled w).2
  = [EvRecorderStop;
     EvSettingsSet "hPanePosition" (VInt 254);
     EvSettingsSet "columnWidths" (VList [150; 50; 100])].
Proof.
  exact (proj1 (proj2
    (on_close_cancels_recording_then_closes "hPanePosition" "columnWidths"
       prompt_handled
       (with_window (setChecked action_record_script true) example_world)
       250 [550] eq_refl))).
Defined.

(** ** Threads of run requests *)





Lemma executed_emit (e : Event) (w : World) :
  executed (emit e w)
  = executed w ++ match e with EvExecute s => [s] | _ => [] end.
Proof. unfold executed, emit. simpl. rewrite omap_app. by destruct e. Qed.

Lemma alive_insert (ts : list Thread) (i : nat) (t t' : Thread) :
  ts !! i = Some t ->
  (length (List.filter Thread_alive (<[i := t']> ts))
   + (if Thread_alive t then 1 else 0)
   = length (List.filter Thread_alive ts)
     + (if Thread_alive t' then 1 else 0))%nat.
Proof.
  revert i. induction ts as [|t0 ts IH]; intros i Hi; [done|].
  destruct i as [|i]; simpl in *.
  - injection Hi as ->. destruct (Thread_alive t), (Thread_alive t'); simpl; lia.
  - specialize (IH i Hi). destruct (Thread_alive t0); simpl; lia.
Qed.

Lemma exec_executed_alive (w : World) (s : Step) :
  (length (executed (exec w s)) + alive_threads (exec w s)
   <= length (executed w) + alive_threads w
      + (if is_run_request s then 1 else 0))%nat.
Proof.
  destruct s as [items changed| |persist| | |tid]; cbn [exec is_run_request].
  - unfold alive_threads, executed. simpl. lia.
  - unfold alive_threads, executed. simpl. lia.
  - unfold save_completed. rewrite executed_emit, app_nil_r.
    unfold alive_threads, executed. simpl. lia.
  - unfold cancel_record. destruct (checked _ _); [|lia].
    rewrite executed_emit, app_nil_r.
    unfold alive_threads, executed. simpl. lia.
  - unfold alive_threads, executed. simpl.
    rewrite List.filter_app, length_app. simpl. lia.
  - unfold _run_script_step.
    destruct (threads w !! tid) as [[| script | |]|] eqn:E; try lia.
    + destruct (get_selected_item _ !! 0%nat) as [script|];
        [pose proof (alive_insert _ _ _ (Sleeping script) E) as Hc
        |pose proof (alive_insert _ _ _ (Died IndexError) E) as Hc];
        unfold alive_threads, executed; simpl in *; lia.
    + rewrite executed_emit, length_app.
      pose proof (alive_insert _ _ _ Finished E) as Hc.
      unfold alive_threads, executed; simpl in *. lia.
Qed.

(** X6: no script runs without a run request, and a request runs at most one
    script: over any interleaving, the scripts handed to the script runner
    plus the threads still alive grow by at most the number of times the run
    action was triggered. *)
Theorem executions_bounded_by_run_requests (steps : list Step) (w : World) :
  (length (executed (run steps w)) + alive_threads (run steps w)
   <= length (executed w) + alive_threads w + run_requests steps)%nat.
Proof.
  revert w. induction steps as [|s steps IH]; intros w; [simpl; lia|].
  simpl. specialize (IH (exec w s)). pose proof (exec_executed_alive w s).
  unfold run_requests in *. simpl.
  destruct (is_run_request s); simpl; unfold run in *; lia.
Qed.



(** ** The dirty flag *)

Lemma update_actions_central_widget (items : list Item) (changed : bool)
    (self : ConfigWindow) :
  central_widget (update_actions items changed self) = central_widget self.
Proof. unfold update_actions. destruct items; [done|]. by destruct changed. Qed.





(** ** What a selection does not change *)

(** X9: [update_actions] only ever writes the enabled flag of the actions it
    names: for every selection it leaves the central widget, the visibility
    of the window and the check mark of every action alone; it never touches
    close, quit, cut, delete and rename; and without [changed] it leaves
    save, undo and redo as they were. *)
Theorem update_actions_frame (items : list Item) (changed : bool)
    (self : ConfigWindow) :
  let self' := update_actions items changed self in
  central_widget self' = central_widget self /\
  isVisible self' = isVisible self /\
  (forall a, checked self' a = checked self a) /\
  Forall (fun a => enabled self' a = enabled self a)
    [action_close_window; action_quit; action_cut_item; action_delete_item;
     action_rename_item] /\
  (changed = false ->
   Forall (fun a => enabled self' a = enabled self a)
     [action_save; action_undo; action_redo]).
Proof.
  cbv zeta. split; [apply update_actions_central_widget|].
  split; [unfold update_actions; destruct items; [done|]; by destruct changed|].
  split; [intros a; apply update_actions_checked|].
  split.
  - destruct items; [by repeat (apply Forall_cons; split; [done|])|].
    destruct changed;
      repeat (apply Forall_cons; split; [reflexivity|]); by apply Forall_nil.
  - intros ->. destruct items; [by repeat (apply Forall_cons; split; [done|])|].
    repeat (apply Forall_cons; split; [reflexivity|]). by apply Forall_nil.
Qed.


(** X11: after a selection that is not empty, the nine actions the selection
    drives depend on that selection (and the clipboard) only: an earlier
    selection, whatever it was, leaves no mark on them.  Updating twice with
    the same selection is a case of it. *)
Theorem update_actions_forgets_earlier_selection (self : ConfigWindow)
    (earlier : list Item) (earlier_changed : bool) (item : Item)
    (rest : list Item) (changed : bool) :
  let before := update_actions earlier earlier_changed self in
  Forall (fun a =>
            enabled (update_actions (item :: rest) changed before) a
            = enabled (update_actions (item :: rest) changed self) a)
    [action_new_top_folder; action_new_sub_folder; action_new_phrase;
     action_new_script; action_copy_item; action_clone_item;
     action_paste_item; action_record_script; action_run_script].
Proof.
  cbv zeta.
  apply Forall_cons; split;
    [unfold update_actions at 1 3; destruct changed; reflexivity|].
  repeat (apply Forall_cons; split;
    [first
       [ by rewrite !update_actions_enabled_create
           by (rewrite !elem_of_cons; auto)
       | by rewrite !update_actions_enabled_copy
           by (rewrite !elem_of_cons; auto)
       | by rewrite !update_actions_enabled_script
           by (rewrite !elem_of_cons; auto)
       | by rewrite !update_actions_enabled_paste,
                    update_actions_central_widget ]|]).
  by apply Forall_nil.
Qed.

(** ** The save action *)



